(** * server.js: a one-route Express application

    The program is seven lines of JavaScript:
<<
    const express = require("express");
    const app = express();
    const PORT = process.env.PORT || 8080;
    app.get("/", (req, res) => res.send("Hello from Node.js app in Kubernetes!"));
    app.listen(PORT, () => console.log(`Server running on port ${PORT}`));
>>
    Everything it does beyond these lines is done by the language (the [||]
    operator, template literals) and by the imported module [express]
    (routing, [res.send], the 404 reply).  The development below embeds the
    program line by line on top of a model of exactly those parts of the
    language and of the framework that the program reaches. *)

From Stdlib Require Import Ascii String ZArith.
From stdpp Require Import base strings gmap pretty.

Open Scope string_scope.

(** ** JavaScript values and operators used by the program *)

Module Js.

(** The values [PORT] can take: [process.env.X] is [undefined] or a string,
    and the literal [8080] is an integer number. *)
Inductive value :=
| VUndefined
| VString (s : string)
| VNumber (n : Z).

#[global] Instance value_eq_dec : EqDecision value.
Proof. solve_decision. Defined.

(** ToBoolean: [undefined], the empty string and [0] are falsy. *)
Definition truthy (v : value) : bool :=
  match v with
  | VUndefined => false
  | VString s => negb (String.eqb s "")
  | VNumber n => negb (Z.eqb n 0)
  end.

(** [a || b]: [a] when it is truthy, [b] otherwise. *)
Definition or (a b : value) : value := if truthy a then a else b.

(** ToString, as a template literal applies it to [${v}]. *)
Definition to_string (v : value) : string :=
  match v with
  | VUndefined => "undefined"
  | VString s => s
  | VNumber n => pretty n
  end.

(** [process.env]: an object whose properties are strings. *)
Definition get (o : gmap string string) (k : string) : value :=
  match o !! k with
  | Some s => VString s
  | None => VUndefined
  end.

End Js.

(** ** Line 3: [const PORT = process.env.PORT || 8080] *)

Definition PORT (env : gmap string string) : Js.value :=
  Js.or (Js.get env "PORT") (Js.VNumber 8080).

(** A string is numeric when it is a non-empty run of decimal digits. *)
Definition is_digit (c : ascii) : bool :=
  let n := nat_of_ascii c in (48 <=? n)%nat && (n <=? 57)%nat.

Definition numeric (s : string) : bool :=
  negb (String.eqb s "") && forallb is_digit (list_ascii_of_string s).


(** ** The framework: what [require("express")] provides

    The definitions follow the sources of the framework's 4.x line:
    [lib/response.js] ([res.send], [res.set]), [lib/request.js] ([req.fresh]),
    the [fresh] package, [lib/router] (route dispatch, the automatic [OPTIONS]
    reply) and [finalhandler] (the 404 reply).  Four functions whose results
    the program never inspects, and the path matcher, whose treatment of
    paths other than the route path itself differs between releases, are kept
    as an interface.  Where the 5.x line differs from what is embedded here
    (which paths besides [/] the route path [/] accepts, the verdict of
    [fresh] on a request that carries both [If-None-Match] and
    [If-Modified-Since], the text of the automatic [OPTIONS] reply), the
    theorems below are stated so as not to depend on it. *)

(** The paths on which releases differ for the route path [/] are made of
    slashes only: the regular expression is [^\/?$] in the 4.x line (the
    empty path and [/]) and [^(?:\/)(?:\/$)?$] in the 5.x line ([/] and
    [//]).  A path with any other character is accepted by neither. *)
Definition only_slashes (path : string) : bool :=
  forallb (Ascii.eqb "/") (list_ascii_of_string path).

Class Framework := {
  (* path-to-regexp: does the route path accept the request pathname *)
  route_match : string -> string -> bool;
  (* a route path without parameters accepts itself; used at "/" *)
  route_match_root : route_match "/" "/" = true;
  (* the route path "/" accepts no path that has a character other than "/" *)
  route_match_slashes :
    forall path, route_match "/" path = true -> only_slashes path = true;
  (* app.listen also registers its callback for the server's 'error' event:
     false in the 4.x line, true in the 5.x line *)
  listen_error_callback : bool;
  (* the entity tag computed from a body (a digest of it) *)
  etag_of : string -> string;
  (* Date.parse on an HTTP date; None stands for NaN *)
  parse_http_date : string -> option Z;
  (* setCharset(type, 'utf-8') on an existing Content-Type *)
  set_charset : string -> string;
  (* finalhandler's HTML page for "Cannot METHOD resource" *)
  error_document : string -> string -> string
}.

(** An incoming message as the handler sees it.  Node lower-cases header
    names; [req_path] is the pathname and [req_query] the part after [?]. *)
Record Request := {
  req_method : string;
  req_path : string;
  req_query : string;
  req_headers : gmap string string
}.

(** The response under construction; header names are kept lower-cased.
    [res_headers] is the table the application fills through [setHeader]
    (what [res.getHeaders()] holds when the response is ended).  The headers
    Node adds on its own when it writes the head ([Date], [Connection],
    [Keep-Alive]) are not part of it. *)
Record ServerResponse := {
  statusCode : Z;
  res_headers : gmap string string;
  res_body : string
}.

Definition set (field val : string) (res : ServerResponse) : ServerResponse :=
  {| statusCode := statusCode res;
     res_headers := <[field := val]> (res_headers res);
     res_body := res_body res |}.

Definition removeHeader (field : string) (res : ServerResponse) : ServerResponse :=
  {| statusCode := statusCode res;
     res_headers := delete field (res_headers res);
     res_body := res_body res |}.

Definition status (code : Z) (res : ServerResponse) : ServerResponse :=
  {| statusCode := code;
     res_headers := res_headers res;
     res_body := res_body res |}.

(** [res.end(chunk)] *)
Definition end_ (chunk : string) (res : ServerResponse) : ServerResponse :=
  {| statusCode := statusCode res;
     res_headers := res_headers res;
     res_body := chunk |}.

(** Truthiness of a header read: [undefined] and the empty string are falsy. *)
Definition present (h : option string) : bool :=
  match h with
  | Some s => negb (String.eqb s "")
  | None => false
  end.

(** *** The [fresh] package *)

Definition is_space (c : ascii) : bool :=
  let n := nat_of_ascii c in
  ((9 <=? n)%nat && (n <=? 13)%nat) || (n =? 32)%nat || (n =? 160)%nat.

Fixpoint split_commas (cur : list ascii) (s : list ascii) : list (list ascii) :=
  match s with
  | [] => [rev cur]
  | c :: s' =>
      if Ascii.eqb c "," then rev cur :: split_commas [] s'
      else split_commas (c :: cur) s'
  end.

Fixpoint drop_spaces (s : list ascii) : list ascii :=
  match s with
  | c :: s' => if is_space c then drop_spaces s' else s
  | [] => []
  end.

Definition trim_spaces (s : list ascii) : list ascii :=
  rev (drop_spaces (rev (drop_spaces s))).

(** [/(?:^|,)\s*?no-cache\s*?(?:,|$)/.test(s)]: some comma-separated item of
    [s] is [no-cache] up to surrounding white space. *)
Definition no_cache (s : string) : bool :=
  existsb
    (fun item => String.eqb (string_of_list_ascii (trim_spaces item)) "no-cache")
    (split_commas [] (list_ascii_of_string s)).

(** [parseTokenList]: the loop over [i] with its [start] and [end] indices. *)
Fixpoint parseTokenList_loop (str : string) (rest : list ascii)
    (i start end' : nat) (tokens : list string) : list string :=
  match rest with
  | [] => tokens ++ [substring start (end' - start) str]
  | c :: rest' =>
      if Ascii.eqb c " " then
        if (start =? end')%nat
        then parseTokenList_loop str rest' (S i) (S i) (S i) tokens
        else parseTokenList_loop str rest' (S i) start end' tokens
      else if Ascii.eqb c "," then
        parseTokenList_loop str rest' (S i) (S i) (S i)
          (tokens ++ [substring start (end' - start) str])
      else parseTokenList_loop str rest' (S i) start (S i) tokens
  end.

Definition parseTokenList (str : string) : list string :=
  parseTokenList_loop str (list_ascii_of_string str) 0 0 0 [].

(** [match === etag || match === 'W/' + etag || 'W/' + match === etag] *)
Definition etag_matches (etag m : string) : bool :=
  String.eqb m etag || String.eqb m ("W/" ++ etag) || String.eqb ("W/" ++ m) etag.

Definition date_le (a b : option Z) : bool :=
  match a, b with
  | Some x, Some y => (x <=? y)%Z
  | _, _ => false
  end.

Definition fresh {F : Framework} (reqHeaders : gmap string string)
    (etag lastModified : option string) : bool :=
  let modifiedSince := reqHeaders !! "if-modified-since" in
  let noneMatch := reqHeaders !! "if-none-match" in
  (* unconditional request *)
  if negb (present modifiedSince) && negb (present noneMatch) then false
  (* Cache-Control: no-cache always reports stale *)
  else if match reqHeaders !! "cache-control" with
          | Some cacheControl => present (Some cacheControl) && no_cache cacheControl
          | None => false
          end then false
  else
    let etagStale :=
      match noneMatch with
      | Some nm =>
          if present noneMatch && negb (String.eqb nm "*") then
            match etag with
            | Some e =>
                if present etag
                then negb (existsb (etag_matches e) (parseTokenList nm))
                else true
            | None => true
            end
          else false
      | None => false
      end in
    if etagStale then false
    else
      let modifiedStale :=
        match modifiedSince with
        | Some ms =>
            if present modifiedSince then
              match lastModified with
              | Some lm =>
                  negb (present lastModified)
                  || negb (date_le (parse_http_date lm) (parse_http_date ms))
              | None => true
              end
            else false
        | None => false
        end in
      negb modifiedStale.

(** *** [req.fresh] *)
Definition req_fresh {F : Framework} (req : Request) (res : ServerResponse) : bool :=
  if negb (String.eqb (req_method req) "GET") && negb (String.eqb (req_method req) "HEAD")
  then false
  else if ((200 <=? statusCode res)%Z && (statusCode res <? 300)%Z)
          || (statusCode res =? 304)%Z
  then fresh (req_headers req) (res_headers res !! "etag") (res_headers res !! "last-modified")
  else false.

(** *** [res.send(body)] for a string body

    The stages are those of the function, in its order. *)

(** A string defaults to html; the charset is reflected in the type. *)
Definition send_type {F : Framework} (res : ServerResponse) : ServerResponse :=
  match res_headers res !! "content-type" with
  | Some type =>
      if present (Some type)
      then set "content-type" (set_charset type) res
      else set "content-type" "text/html; charset=utf-8" res
  | None => set "content-type" "text/html; charset=utf-8" res
  end.

(** Populate Content-Length, then ETag unless the response has one. *)
Definition send_length (body : string) (res : ServerResponse) : ServerResponse :=
  set "content-length" (pretty (String.length body)) res.

Definition send_etag {F : Framework} (body : string) (res : ServerResponse)
    : ServerResponse :=
  let generateETag := negb (present (res_headers res !! "etag")) in
  if generateETag && present (Some (etag_of body))
  then set "etag" (etag_of body) res
  else res.

(** Freshness: [if (req.fresh) this.statusCode = 304]. *)
Definition send_fresh {F : Framework} (req : Request) (res : ServerResponse)
    : ServerResponse :=
  if req_fresh req res then status 304 res else res.

(** Strip irrelevant headers (204 and 304), alter headers for 205; the chunk
    written is then empty. *)
Definition bodiless (res : ServerResponse) : bool :=
  (statusCode res =? 204)%Z || (statusCode res =? 304)%Z.

Definition send_strip (res : ServerResponse) : ServerResponse :=
  let res :=
    if bodiless res
    then removeHeader "transfer-encoding"
           (removeHeader "content-length" (removeHeader "content-type" res))
    else res in
  if (statusCode res =? 205)%Z
  then removeHeader "transfer-encoding" (set "content-length" "0" res)
  else res.

Definition send {F : Framework} (req : Request) (body : string)
    (res : ServerResponse) : ServerResponse :=
  let res := send_fresh req (send_etag body (send_length body (send_type res))) in
  let chunk :=
    if bodiless res || (statusCode res =? 205)%Z then "" else body in
  let res := send_strip res in
  (* skip body for HEAD *)
  if String.eqb (req_method req) "HEAD" then end_ "" res else end_ chunk res.

(** *** Routes and dispatch ([lib/router]) *)

Definition lower_ascii (c : ascii) : ascii :=
  let n := nat_of_ascii c in
  if (65 <=? n)%nat && (n <=? 90)%nat then ascii_of_nat (n + 32) else c.

Definition upper_ascii (c : ascii) : ascii :=
  let n := nat_of_ascii c in
  if (97 <=? n)%nat && (n <=? 122)%nat then ascii_of_nat (n - 32) else c.

Definition toLowerCase (s : string) : string :=
  string_of_list_ascii (map lower_ascii (list_ascii_of_string s)).

Definition toUpperCase (s : string) : string :=
  string_of_list_ascii (map upper_ascii (list_ascii_of_string s)).

Definition has (methods : list string) (name : string) : bool :=
  existsb (String.eqb name) methods.

(** A route: its path, the methods it was registered for (lower-cased) and
    its handler.  The handlers of this program end the response and never
    call [next]. *)
Record Route := {
  route_path : string;
  route_methods : list string;
  route_handle : Request -> ServerResponse -> ServerResponse
}.

(** [Route.prototype._handles_method]: a [get] route also answers [HEAD]. *)
Definition handles_method (route : Route) (method : string) : bool :=
  let name := toLowerCase method in
  let name :=
    if String.eqb name "head" && negb (has (route_methods route) "head")
    then "get" else name in
  has (route_methods route) name.

(** [Route.prototype._options] *)
Definition route_options (route : Route) : list string :=
  let methods := route_methods route in
  let methods :=
    if has methods "get" && negb (has methods "head")
    then (methods ++ ["head"])%list else methods in
  map toUpperCase methods.

Fixpoint appendMethods (list' addition : list string) : list string :=
  match addition with
  | [] => list'
  | m :: rest =>
      if has list' m then appendMethods list' rest
      else appendMethods (list' ++ [m])%list rest
  end.

(** [finalhandler] with no error: 404 and an HTML page. *)
Definition finalhandler {F : Framework} (req : Request) (res : ServerResponse)
    : ServerResponse :=
  let body := error_document (req_method req) (req_path req) in
  let res := status 404 res in
  let res := removeHeader "content-range"
               (removeHeader "content-language"
                  (removeHeader "content-encoding" res)) in
  let res := set "content-security-policy" "default-src 'none'" res in
  let res := set "x-content-type-options" "nosniff" res in
  let res := set "content-type" "text/html; charset=utf-8" res in
  let res := set "content-length" (pretty (String.length body)) res in
  if String.eqb (req_method req) "HEAD" then end_ "" res else end_ body res.

Definition sendOptionsResponse {F : Framework} (req : Request) (res : ServerResponse)
    (options : list string) : ServerResponse :=
  let body := String.concat "," options in
  send req body (set "allow" body res).

(** The router's [next] loop over the stack; [options] collects the methods
    of the routes whose path matched, for an [OPTIONS] request.  A route that
    does not handle the method is passed over; so is, through an empty
    [Route.dispatch], a [HEAD] on a route with neither [head] nor [get]. *)
Fixpoint next {F : Framework} (stack : list Route) (options : list string)
    (req : Request) (res : ServerResponse) : ServerResponse :=
  match stack with
  | [] =>
      if String.eqb (req_method req) "OPTIONS" && negb (length options =? 0)%nat
      then sendOptionsResponse req res options
      else finalhandler req res
  | route :: stack' =>
      if negb (route_match (route_path route) (req_path req))
      then next stack' options req res
      else
        let has_method := handles_method route (req_method req) in
        let options :=
          if negb has_method && String.eqb (req_method req) "OPTIONS"
          then appendMethods options (route_options route)
          else options in
        if has_method then route_handle route req res
        else next stack' options req res
  end.

(** An application: its settings (the boolean ones) and its router stack. *)
Record Application := {
  settings : gmap string bool;
  stack : list Route
}.

(** [express()]: the default configuration enables [x-powered-by]. *)
Definition express : Application :=
  {| settings := {[ "x-powered-by" := true ]}; stack := [] |}.

(** [app.enabled(setting)] *)
Definition enabled (setting : string) (app : Application) : bool :=
  match settings app !! setting with
  | Some b => b
  | None => false
  end.

(** [app.get(path, handler)] *)
Definition get (path : string)
    (handler : Request -> ServerResponse -> ServerResponse)
    (app : Application) : Application :=
  {| settings := settings app;
     stack := (stack app ++ [{| route_path := path; route_methods := ["get"];
                               route_handle := handler |}])%list |}.

(** A new response: status 200, no header, nothing written. *)
Definition response : ServerResponse :=
  {| statusCode := 200; res_headers := ∅; res_body := "" |}.

(** The init middleware: the [X-Powered-By] header, when the setting is
    enabled. *)
Definition expressInit (app : Application) (res : ServerResponse) : ServerResponse :=
  if enabled "x-powered-by" app then set "x-powered-by" "Express" res else res.

(** [app.handle]: a new response through the init middleware, then the
    router.  The requests handled are those Node hands to the application;
    a request line its parser refuses is answered by Node itself. *)
Definition handle {F : Framework} (app : Application) (req : Request) : ServerResponse :=
  next (stack app) [] req (expressInit app response).

(** ** Lines 2 and 5: the application *)

Definition greeting : string := "Hello from Node.js app in Kubernetes!".

Definition app {F : Framework} : Application :=
  get "/" (fun req res => send req greeting res) express.

(** ** Line 7: [app.listen(PORT, callback)] and the running process *)

(** What [server.listen] makes of its first argument (Node's [net]): a
    number, or a string that [Number] turns into a number that is at least
    0, is a port, port 0 standing for any free port, and a port above 65535
    is refused; any other string names a pipe.  [Number] is embedded for two
    kinds of strings, runs of decimal digits and strings whose first
    character can start no numeric literal; elsewhere the result is [None]. *)
Inductive Target :=
| Port (n : Z)
| Pipe (name : string)
| BadPort.

Definition decimal (s : string) : Z :=
  fold_left (fun n c => (10 * n + Z.of_nat (nat_of_ascii c - 48))%Z)
    (list_ascii_of_string s) 0%Z.

(** The first character starts no numeric literal: it is not a digit, a
    sign, a dot, the [I] of [Infinity] or white space. *)
Definition starts_no_number (s : string) : bool :=
  match s with
  | EmptyString => false
  | String c _ =>
      negb (is_digit c || Ascii.eqb c "+" || Ascii.eqb c "-" || Ascii.eqb c "."
            || Ascii.eqb c "I" || is_space c)
  end.

Definition port_target (n : Z) : Target :=
  if (n <=? 65535)%Z then Port n else BadPort.

Definition listen_target (v : Js.value) : option Target :=
  match v with
  | Js.VUndefined => None
  | Js.VNumber n => if (0 <=? n)%Z then Some (port_target n) else None
  | Js.VString s =>
      if numeric s then Some (port_target (decimal s))
      else if starts_no_number s then Some (Pipe s)
      else None
  end.

(** What the process emits: lines on standard output, text on standard
    error, and HTTP replies. *)
Inductive Output :=
| Stdout (line : string)
| Stderr (text : string)
| Reply (res : ServerResponse).

(** What reaches the process: the server's [listening] event (the bind
    succeeded and the socket is bound); the [error] event a failed bind
    raises, with the runtime's report of it; a request handed to the
    application; and an assignment to [process.env] made while the process
    runs (the program makes none). *)
Inductive Event :=
| Listening
| BindError (report : string)
| Incoming (req : Request)
| EnvWrite (name value : string).

(** [Starting]: [listen] was called and the callback is registered, once;
    [Serving]: the socket accepts connections; [Failed]: the bind failed and
    the error went to a listener; [Crashed]: the [error] event found no
    listener and brought the process down. *)
Inductive State :=
| Starting
| Serving
| Failed
| Crashed.

(** The process: [process.env], the constant [PORT], the application, the
    argument [listen] received, and the state of the server. *)
Record Process := {
  proc_env : gmap string string;
  proc_PORT : Js.value;
  proc_app : Application;
  proc_listen : Js.value;
  proc_state : State
}.

(** Running the script up to the end of line 7. *)
Definition main {F : Framework} (env : gmap string string) : Process :=
  let PORT := PORT env in
  {| proc_env := env; proc_PORT := PORT; proc_app := app; proc_listen := PORT;
     proc_state := Starting |}.

(** The callback of line 7. *)
Definition callback (p : Process) : list Output :=
  [Stdout ("Server running on port " ++ Js.to_string (proc_PORT p))].

Definition enter (state : State) (p : Process) : Process :=
  {| proc_env := proc_env p; proc_PORT := proc_PORT p; proc_app := proc_app p;
     proc_listen := proc_listen p; proc_state := state |}.

Definition assign (name value : string) (p : Process) : Process :=
  {| proc_env := <[name := value]> (proc_env p); proc_PORT := proc_PORT p;
     proc_app := proc_app p; proc_listen := proc_listen p;
     proc_state := proc_state p |}.

(** One event.  The callback is registered with [once], so it runs on the
    first [listening] event only; a failed bind reaches it as well when the
    framework registered it for [error], and otherwise finds no listener:
    the runtime reports the error and the process is over.  Requests arrive
    only while the server is serving. *)
Definition step {F : Framework} (p : Process) (e : Event) : Process * list Output :=
  match e, proc_state p with
  | Listening, Starting => (enter Serving p, callback p)
  | BindError report, Starting =>
      if listen_error_callback then (enter Failed p, callback p)
      else (enter Crashed p, [Stderr report])
  | Incoming req, Serving => (p, [Reply (handle (proc_app p) req)])
  | EnvWrite name value, (Starting | Serving | Failed) => (assign name value p, [])
  | _, _ => (p, [])
  end.

Fixpoint run {F : Framework} (p : Process) (events : list Event) : Process * list Output :=
  match events with
  | [] => (p, [])
  | e :: events' =>
      let '(p1, out1) := step p e in
      let '(p2, out2) := run p1 events' in
      (p2, (out1 ++ out2)%list)
  end.

(** The lines written to standard output, and what is written to standard
    error. *)
Fixpoint stdout (out : list Output) : list string :=
  match out with
  | [] => []
  | Stdout line :: out' => line :: stdout out'
  | _ :: out' => stdout out'
  end.


Definition is_env_write (e : Event) : bool :=
  match e with
  | EnvWrite _ _ => true
  | _ => false
  end.


(** ** An instance of the interface, to run the model on concrete requests:
    exact path matching, a tag made of the body length, no date parsing. *)
Lemma eqb_root_slashes path :
  String.eqb "/" path = true -> only_slashes path = true.
Proof. intros H. apply String.eqb_eq in H. subst path. reflexivity. Qed.

Definition sample : Framework := {|
  route_match := String.eqb;
  route_match_root := eq_refl;
  route_match_slashes := eqb_root_slashes;
  listen_error_callback := false;
  etag_of := fun body => "W/" ++ pretty (String.length body);
  parse_http_date := fun _ => None;
  set_charset := fun type => type;
  error_document := fun method resource => "Cannot " ++ method ++ " " ++ resource
|}.

Definition request (method path query : string) (headers : gmap string string) : Request :=
  {| req_method := method; req_path := path; req_query := query; req_headers := headers |}.

(** [req.method] is GET or HEAD, the methods [req.fresh] considers. *)
Definition get_or_head (method : string) : bool :=
  String.eqb method "GET" || String.eqb method "HEAD".

(** The request is a conditional one that a reply with this body satisfies:
    what [req.fresh] evaluates to inside [res.send(body)] when the handler
    received the response untouched. *)
Definition not_modified {F : Framework} (req : Request) (body : string) : bool :=
  get_or_head (req_method req)
  && fresh (req_headers req) (Some (etag_of body)) None.

(** ** Notions used to state further properties *)

(** A character [parseTokenList] keeps inside a token: neither a space nor a
    comma.  Entity tags are made of such characters. *)
Definition token_char (c : ascii) : bool :=
  negb (Ascii.eqb c " ") && negb (Ascii.eqb c ",").

Definition plain_token (s : string) : bool :=
  forallb token_char (list_ascii_of_string s).

(** The headers [res.send(body)] leaves on a response whose headers were [h]
    and had neither type nor tag: the type, the length and, when the tag is
    not empty, the tag. *)
Definition sent_headers {F : Framework} (body : string) (h : gmap string string)
    : gmap string string :=
  let h := <["content-length" := pretty (String.length body)]>
             (<["content-type" := "text/html; charset=utf-8"]> h) in
  if present (Some (etag_of body)) then <["etag" := etag_of body]> h else h.

(** ** The model on concrete inputs *)

Section Examples.

#[local] Existing Instance sample.

Example PORT_unset : PORT ∅ = Js.VNumber 8080.
Proof. reflexivity. Qed.

Example PORT_3000 : PORT {[ "PORT" := "3000" ]} = Js.VString "3000".
Proof. vm_compute. reflexivity. Qed.

Example to_string_default : Js.to_string (PORT ∅) = "8080".
Proof. vm_compute. reflexivity. Qed.

Example get_root :
  let res := handle app (request "GET" "/" "" ∅) in
  statusCode res = 200%Z /\ res_body res = greeting
  /\ res_headers res !! "content-type" = Some "text/html; charset=utf-8"
  /\ res_headers res !! "content-length" = Some "37".
Proof. vm_compute. repeat split. Qed.

Example get_root_if_none_match_star :
  let res := handle app (request "GET" "/" "" {[ "if-none-match" := "*" ]}) in
  statusCode res = 304%Z /\ res_body res = ""
  /\ res_headers res !! "content-type" = None.
Proof. vm_compute. repeat split. Qed.

Example head_root :
  let res := handle app (request "HEAD" "/" "" ∅) in
  statusCode res = 200%Z /\ res_body res = "".
Proof. vm_compute. repeat split. Qed.

Example options_root :
  let res := handle app (request "OPTIONS" "/" "" ∅) in
  statusCode res = 200%Z /\ res_body res = "GET,HEAD"
  /\ res_headers res !! "allow" = Some "GET,HEAD".
Proof. vm_compute. repeat split. Qed.

Example post_root : statusCode (handle app (request "POST" "/" "" ∅)) = 404%Z.
Proof. vm_compute. reflexivity. Qed.

Example get_other : statusCode (handle app (request "GET" "/health" "" ∅)) = 404%Z.
Proof. vm_compute. reflexivity. Qed.

Example parseTokenList_two : parseTokenList " a, b c ,d" = ["a"; "b c"; "d"].
Proof. vm_compute. reflexivity. Qed.

Example no_cache_yes : no_cache "max-age=0, no-cache" = true.
Proof. vm_compute. reflexivity. Qed.

Example no_cache_no : no_cache "no-cache=x" = false.
Proof. vm_compute. reflexivity. Qed.

Example startup_default :
  (run (main ∅) [Listening]).2 = [Stdout "Server running on port 8080"].
Proof. reflexivity. Qed.

Example startup_PORT_3000 :
  stdout (run (main {[ "PORT" := "3000" ]}) [Listening]).2
  = ["Server running on port 3000"].
Proof. reflexivity. Qed.

Example env_write_is_not_read :
  let run1 := run (main {[ "PORT" := "3000" ]}) [EnvWrite "PORT" "9000"; Listening] in
  proc_env run1.1 !! "PORT" = Some "9000"
  /\ proc_PORT run1.1 = Js.VString "3000"
  /\ stdout run1.2 = ["Server running on port 3000"].
Proof. repeat split. Qed.

Example listening_twice :
  stdout (run (main ∅) [Listening; Listening]).2 = ["Server running on port 8080"].
Proof. reflexivity. Qed.

Example bind_error_unhandled :
  let run1 := run (main ∅) [BindError "EADDRINUSE"; Listening] in
  proc_state run1.1 = Crashed /\ run1.2 = [Stderr "EADDRINUSE"].
Proof. split; reflexivity. Qed.

Example listen_target_default : listen_target (PORT ∅) = Some (Port 8080).
Proof. reflexivity. Qed.

Example listen_target_3000 :
  listen_target (PORT {[ "PORT" := "3000" ]}) = Some (Port 3000).
Proof. reflexivity. Qed.

Example listen_target_70000 :
  listen_target (PORT {[ "PORT" := "70000" ]}) = Some BadPort.
Proof. reflexivity. Qed.

Example listen_target_signed : listen_target (PORT {[ "PORT" := "+80" ]}) = None.
Proof. reflexivity. Qed.

End Examples.

(** ** Properties of the framework functions *)

Lemma fresh_etag_empty {F : Framework} h lm : fresh h (Some "") lm = fresh h None lm.
Proof. unfold fresh. destruct (h !! "if-none-match"); reflexivity. Qed.

(** [fresh] reads three request headers and nothing else. *)
Lemma fresh_ext {F : Framework} h1 h2 etag lm :
  h1 !! "if-none-match" = h2 !! "if-none-match" ->
  h1 !! "if-modified-since" = h2 !! "if-modified-since" ->
  h1 !! "cache-control" = h2 !! "cache-control" ->
  fresh h1 etag lm = fresh h2 etag lm.
Proof. intros Hn Hm Hc. unfold fresh. rewrite Hn, Hm, Hc. reflexivity. Qed.

(** A request without [If-None-Match] is never fresh when the response has
    no [Last-Modified]. *)
Lemma fresh_needs_none_match {F : Framework} h etag :
  present (h !! "if-none-match") = false -> fresh h etag None = false.
Proof.
  intros Hn. unfold fresh.
  destruct (h !! "if-modified-since") as [ms|] eqn:Hms;
    destruct (h !! "if-none-match") as [nm|] eqn:Hnm;
    cbn [present] in *; rewrite ?Hn; cbn [negb andb].
  all: destruct (String.eqb_spec ms "") as [-> | Hne] || idtac; cbn [negb andb];
    try reflexivity.
  all: repeat match goal with
         | |- context [match ?x with _ => _ end] => destruct x
         end; reflexivity.
Qed.

(** [If-None-Match: *] alone makes the request fresh. *)
Lemma fresh_star {F : Framework} h etag lm :
  h !! "if-none-match" = Some "*" ->
  h !! "if-modified-since" = None ->
  h !! "cache-control" = None ->
  fresh h etag lm = true.
Proof. intros Hn Hm Hc. unfold fresh. rewrite Hn, Hm, Hc. reflexivity. Qed.

Lemma lookup_set field val res k :
  res_headers (set field val res) !! k
  = if decide (field = k) then Some val else res_headers res !! k.
Proof. unfold set; cbn. apply lookup_insert. Qed.

Ltac headers :=
  rewrite ?lookup_set; repeat case_decide; try discriminate; try congruence.

(** [res.send] on a response the handler received untouched: status 200, no
    Content-Type, ETag or Last-Modified set. *)
Section Send.

Context {F : Framework}.
Variables (req : Request) (body : string) (res : ServerResponse).
Hypothesis Hstatus : statusCode res = 200%Z.
Hypothesis Htype : res_headers res !! "content-type" = None.
Hypothesis Hetag : res_headers res !! "etag" = None.
Hypothesis Hmod : res_headers res !! "last-modified" = None.

Let tagged := send_etag body (send_length body (send_type res)).

Lemma tagged_status : statusCode tagged = 200%Z.
Proof.
  unfold tagged, send_etag, send_length, send_type. rewrite Htype.
  destruct (_ && _); exact Hstatus.
Qed.

Lemma tagged_type :
  res_headers tagged !! "content-type" = Some "text/html; charset=utf-8".
Proof.
  unfold tagged, send_etag, send_length, send_type. rewrite Htype.
  destruct (_ && _); headers; headers.
Qed.

Lemma tagged_fresh : req_fresh req tagged = not_modified req body.
Proof.
  unfold req_fresh, not_modified, get_or_head. rewrite tagged_status. cbn.
  assert (Hlm : res_headers tagged !! "last-modified" = None).
  { unfold tagged, send_etag, send_length, send_type. rewrite Htype.
    destruct (_ && _); headers; exact Hmod. }
  rewrite Hlm.
  destruct (String.eqb (req_method req) "GET"),
    (String.eqb (req_method req) "HEAD"); cbn; try reflexivity.
  all: unfold tagged, send_etag, send_length, send_type; rewrite Htype;
    headers; rewrite Hetag; cbn [present negb andb];
    destruct (String.eqb_spec (etag_of body) "") as [-> | Hne]; cbn [negb];
    headers; rewrite ?Hetag, ?fresh_etag_empty; reflexivity.
Qed.

Lemma send_status :
  statusCode (send req body res) = if not_modified req body then 304%Z else 200%Z.
Proof.
  unfold send, send_fresh. fold tagged. rewrite tagged_fresh.
  destruct (not_modified req body).
  - destruct (String.eqb (req_method req) "HEAD"); reflexivity.
  - unfold send_strip, bodiless. repeat (rewrite tagged_status; cbn).
    destruct (String.eqb (req_method req) "HEAD"); cbn; apply tagged_status.
Qed.

Lemma send_body :
  res_body (send req body res)
  = if not_modified req body || String.eqb (req_method req) "HEAD" then "" else body.
Proof.
  unfold send, send_fresh. fold tagged. rewrite tagged_fresh.
  destruct (not_modified req body).
  - destruct (String.eqb (req_method req) "HEAD"); reflexivity.
  - unfold bodiless. rewrite tagged_status. cbn.
    destruct (String.eqb (req_method req) "HEAD"); reflexivity.
Qed.

Lemma send_content_type :
  res_headers (send req body res) !! "content-type"
  = if not_modified req body then None else Some "text/html; charset=utf-8".
Proof.
  unfold send, send_fresh. fold tagged. rewrite tagged_fresh.
  destruct (not_modified req body).
  - destruct (String.eqb (req_method req) "HEAD"); cbn;
      rewrite lookup_delete_ne, lookup_delete_ne, lookup_delete_eq by discriminate;
      reflexivity.
  - unfold send_strip, bodiless. repeat (rewrite tagged_status; cbn).
    destruct (String.eqb (req_method req) "HEAD"); cbn; apply tagged_type.
Qed.

End Send.

(** [res.send] reads the request through its method and [fresh]'s three
    headers only. *)
Lemma send_ext {F : Framework} r1 r2 body res :
  req_method r1 = req_method r2 ->
  req_headers r1 !! "if-none-match" = req_headers r2 !! "if-none-match" ->
  req_headers r1 !! "if-modified-since" = req_headers r2 !! "if-modified-since" ->
  req_headers r1 !! "cache-control" = req_headers r2 !! "cache-control" ->
  send r1 body res = send r2 body res.
Proof.
  intros Hm Hn Hs Hc. unfold send, send_fresh, req_fresh.
  rewrite Hm, (fresh_ext _ _ _ _ Hn Hs Hc). reflexivity.
Qed.

Lemma finalhandler_status {F : Framework} req res :
  statusCode (finalhandler req res) = 404%Z.
Proof. unfold finalhandler. destruct (String.eqb _ _); reflexivity. Qed.

(** The program leaves the setting as [express()] made it: enabled. *)
Lemma expressInit_app {F : Framework} :
  expressInit app response = set "x-powered-by" "Express" response.
Proof. reflexivity. Qed.

Lemma expressInit_untouched {F : Framework} :
  statusCode (expressInit app response) = 200%Z
  /\ res_headers (expressInit app response) !! "content-type" = None
  /\ res_headers (expressInit app response) !! "etag" = None
  /\ res_headers (expressInit app response) !! "last-modified" = None.
Proof. repeat split. Qed.

(** ** The dispatch of the application *)

Lemma handles_method_get route m :
  route_methods route = ["get"] ->
  handles_method route m
  = String.eqb (toLowerCase m) "get" || String.eqb (toLowerCase m) "head".
Proof.
  intros Hr. unfold handles_method. rewrite Hr. cbn [has existsb negb andb].
  rewrite andb_true_r.
  destruct (String.eqb_spec (toLowerCase m) "head") as [-> | Hh]; cbn.
  - reflexivity.
  - rewrite !orb_false_r. rewrite String.eqb_sym. reflexivity.
Qed.

Lemma handle_app {F : Framework} req :
  handle app req =
  if negb (route_match "/" (req_path req))
  then finalhandler req (expressInit app response)
  else if String.eqb (toLowerCase (req_method req)) "get"
          || String.eqb (toLowerCase (req_method req)) "head"
  then send req greeting (expressInit app response)
  else if String.eqb (req_method req) "OPTIONS"
  then sendOptionsResponse req (expressInit app response) ["GET"; "HEAD"]
  else finalhandler req (expressInit app response).
Proof.
  unfold handle. change (stack app) with
    [{| route_path := "/"; route_methods := ["get"];
        route_handle := fun req res => send req greeting res |}].
  cbn [next route_path].
  destruct (route_match "/" (req_path req)); cbn [negb].
  2:{ cbn. rewrite andb_false_r. reflexivity. }
  rewrite handles_method_get by reflexivity.
  destruct (_ || _); [reflexivity |].
  cbn [negb andb].
  destruct (String.eqb (req_method req) "OPTIONS"); reflexivity.
Qed.

(** [GET /] and [HEAD /] reach the handler of line 5. *)
Lemma handle_root {F : Framework} req :
  get_or_head (req_method req) = true -> req_path req = "/" ->
  handle app req = send req greeting (expressInit app response).
Proof.
  intros Hm Hp. rewrite handle_app, Hp, route_match_root. cbn [negb].
  unfold get_or_head in Hm. apply orb_prop in Hm.
  destruct Hm as [Hm | Hm]; apply String.eqb_eq in Hm; rewrite Hm; reflexivity.
Qed.

(** The [OPTIONS] reply the router builds for [/] has status 200. *)
Lemma options_root_status {F : Framework} req :
  req_method req = "OPTIONS" -> req_path req = "/" ->
  statusCode (handle app req) = 200%Z.
Proof.
  intros Hm Hp. rewrite handle_app, Hp, route_match_root, Hm.
  change (statusCode (sendOptionsResponse req (expressInit app response) ["GET"; "HEAD"])
          = 200%Z).
  unfold sendOptionsResponse. rewrite send_status.
  - unfold not_modified. rewrite Hm. reflexivity.
  - reflexivity.
  - reflexivity.
  - reflexivity.
  - reflexivity.
Qed.

(** ** The configured port *)

(** C2, as stated, fails: with [PORT=abc] the configured port is the string
    [abc], not 8080. *)
Lemma PORT_non_numeric_kept :
  numeric "abc" = false
  /\ PORT {[ "PORT" := "abc" ]} = Js.VString "abc"
  /\ PORT {[ "PORT" := "abc" ]} <> Js.VNumber 8080.
Proof. repeat split. discriminate. Qed.

(** C2, amended: when [PORT] is absent the configured port is the default
    8080; when it is set to a non-numeric string the default is taken only
    if that string is empty, and any other non-numeric string is itself the
    configured port.  [PORT] is a total function: no input raises an error. *)
Theorem PORT_fallback (env : gmap string string) :
  (env !! "PORT" = None -> PORT env = Js.VNumber 8080)
  /\ (forall s, env !! "PORT" = Some s -> numeric s = false ->
        (s = "" -> PORT env = Js.VNumber 8080)
        /\ (s <> "" -> PORT env = Js.VString s /\ PORT env <> Js.VNumber 8080)).
Proof.
  unfold PORT, Js.or, Js.get. split.
  - intros ->. reflexivity.
  - intros s -> _. cbn [Js.truthy]. split.
    + intros ->. reflexivity.
    + intros Hne. apply String.eqb_neq in Hne. rewrite Hne. cbn [negb].
      split; [reflexivity | discriminate].
Qed.

Lemma PORT_fallback_witness :
  PORT ∅ = Js.VNumber 8080 /\ PORT {[ "PORT" := "abc" ]} = Js.VString "abc".
Proof.
  split.
  - apply (proj1 (PORT_fallback ∅)). reflexivity.
  - apply (proj2 (PORT_fallback {[ "PORT" := "abc" ]}) "abc");
      [reflexivity | reflexivity | discriminate].
Defined.

(** C10: when [PORT] is set to the empty string the configured port is the
    default 8080; when it is set to a non-empty string, numeric or not, that
    very string is the value [app.listen] receives: [listen] is passed
    [PORT] itself, which is never validated or converted. *)
Theorem listen_argument {F : Framework} (env : gmap string string) (s : string) :
  env !! "PORT" = Some s ->
  proc_listen (main env) = PORT env
  /\ (s = "" -> PORT env = Js.VNumber 8080)
  /\ (s <> "" -> proc_listen (main env) = Js.VString s).
Proof.
  intros Hs. cbn [main proc_listen]. unfold PORT, Js.or, Js.get. rewrite Hs.
  cbn [Js.truthy]. repeat split.
  - intros ->. reflexivity.
  - intros Hne. apply String.eqb_neq in Hne. rewrite Hne. reflexivity.
Qed.

Lemma listen_argument_witness :
  proc_listen (main (F := sample) {[ "PORT" := "3000" ]}) = Js.VString "3000"
  /\ PORT {[ "PORT" := "" ]} = Js.VNumber 8080.
Proof.
  split.
  - apply (listen_argument (F := sample) {[ "PORT" := "3000" ]} "3000");
      [reflexivity | discriminate].
  - apply (listen_argument (F := sample) {[ "PORT" := "" ]} "");
      reflexivity.
Defined.

(** ** The running process *)

(** No event touches the constant, the application or the argument of
    [listen]. *)
Lemma step_configuration {F : Framework} p e :
  proc_PORT (step p e).1 = proc_PORT p
  /\ proc_app (step p e).1 = proc_app p
  /\ proc_listen (step p e).1 = proc_listen p.
Proof.
  unfold step. destruct e, (proc_state p); try destruct listen_error_callback;
    repeat split.
Qed.

Lemma run_configuration {F : Framework} p events :
  proc_PORT (run p events).1 = proc_PORT p
  /\ proc_app (run p events).1 = proc_app p
  /\ proc_listen (run p events).1 = proc_listen p.
Proof.
  revert p. induction events as [|e events IH]; intros p; [repeat split |].
  cbn [run]. pose proof (step_configuration p e) as (HP & HA & HL).
  destruct (step p e) as [p1 out1]. specialize (IH p1).
  destruct (run p1 events) as [p2 out2]. cbn [fst] in *.
  destruct IH as (IP & IA & IL). repeat split; congruence.
Qed.

(** Two processes that differ in [process.env] at most. *)
Definition alike (p q : Process) : Prop :=
  proc_PORT p = proc_PORT q /\ proc_app p = proc_app q
  /\ proc_listen p = proc_listen q /\ proc_state p = proc_state q.

Lemma step_alike {F : Framework} p q e :
  alike p q ->
  (step p e).2 = (step q e).2 /\ alike (step p e).1 (step q e).1.
Proof.
  intros (HP & HA & HL & HS). unfold step, callback. rewrite <- HS.
  destruct e, (proc_state p) eqn:Hp; try destruct listen_error_callback;
    cbn [fst snd]; rewrite ?HP, ?HA; repeat split; cbn; congruence.
Qed.

Lemma step_env_write {F : Framework} p name value :
  (step p (EnvWrite name value)).2 = []
  /\ alike (step p (EnvWrite name value)).1 p.
Proof. unfold step. destruct (proc_state p); repeat split. Qed.

Lemma alike_trans p q r : alike p q -> alike q r -> alike p r.
Proof. unfold alike. intuition congruence. Qed.

(** Assignments to [process.env] are invisible: no output depends on them. *)
Lemma run_ignores_env {F : Framework} events :
  forall p q, alike p q ->
  (run p events).2
  = (run q (List.filter (fun e => negb (is_env_write e)) events)).2.
Proof.
  induction events as [|e events IH]; intros p q Hpq; [reflexivity |].
  destruct (is_env_write e) eqn:He.
  - destruct e; try discriminate He. cbn [List.filter is_env_write negb run].
    pose proof (step_env_write p name value) as [Hout Hp].
    destruct (step p (EnvWrite name value)) as [p1 out1]. cbn [fst snd] in *.
    subst out1. specialize (IH p1 q (alike_trans _ _ _ Hp Hpq)).
    destruct (run p1 events) as [p2 out2]. cbn [snd] in *. exact IH.
  - cbn [List.filter]. rewrite He. cbn [negb run].
    pose proof (step_alike p q e Hpq) as [Hout Hp].
    destruct (step p e) as [p1 out1], (step q e) as [q1 out1'].
    cbn [fst snd] in *. subst out1'. specialize (IH p1 q1 Hp).
    destruct (run p1 events) as [p2 out2].
    destruct (run q1 _) as [q2 out2']. cbn [snd] in *. congruence.
Qed.

(** C7: the configuration is read once, by [main], and never changes.  After
    any sequence of events the process holds the [PORT] computed from the
    environment at start, the argument [listen] received and the application
    with its constant body; and the environment is not read again: what the
    process emits is what it would emit had [process.env] never been
    assigned to after the start. *)
Theorem configuration_read_once {F : Framework}
    (env : gmap string string) (events : list Event) :
  let p := (run (main env) events).1 in
  proc_PORT p = PORT env
  /\ proc_listen p = PORT env
  /\ proc_app p = get "/" (fun req res => send req greeting res) express
  /\ (run (main env) events).2
     = (run (main env) (List.filter (fun e => negb (is_env_write e)) events)).2.
Proof.
  cbn zeta. pose proof (run_configuration (main env) events) as (HP & HA & HL).
  repeat split; try assumption.
  apply run_ignores_env. repeat split.
Qed.








(** A failed bind: with the callback registered for [error] the very line
    of a successful start is written and the process lives on without a
    socket; without it the runtime's report goes to standard error and the
    process is over.  Which of the two applies is the framework's choice. *)
Lemma bind_error_outcome {F : Framework} (env : gmap string string) (report : string) :
  let result := run (main env) [BindError report] in
  if listen_error_callback
  then proc_state result.1 = Failed
       /\ result.2 = [Stdout ("Server running on port " ++ Js.to_string (PORT env))]
  else proc_state result.1 = Crashed /\ result.2 = [Stderr report].
Proof.
  cbn zeta. cbn [run step main proc_state].
  destruct listen_error_callback; split; reflexivity.
Qed.

(** ** The replies to [GET /] *)

(** The reply to [GET /] is one of two, by [not_modified]. *)
Lemma get_root_cases {F : Framework} (req : Request) :
  req_method req = "GET" -> req_path req = "/" ->
  let res := handle app req in
  statusCode res = (if not_modified req greeting then 304%Z else 200%Z)
  /\ res_body res = (if not_modified req greeting then "" else greeting)
  /\ res_headers res !! "content-type"
     = (if not_modified req greeting then None else Some "text/html; charset=utf-8").
Proof.
  intros Hm Hp. cbn zeta.
  rewrite handle_root by (unfold get_or_head; rewrite ?Hm; reflexivity || assumption).
  rewrite send_status, send_body, send_content_type by reflexivity.
  rewrite Hm. change (String.eqb "GET" "HEAD") with false.
  rewrite orb_false_r. repeat split.
Qed.

Lemma get_root_plain {F : Framework} (req : Request) :
  req_method req = "GET" -> req_path req = "/" ->
  present (req_headers req !! "if-none-match") = false ->
  statusCode (handle app req) = 200%Z /\ res_body (handle app req) = greeting.
Proof.
  intros Hm Hp Hn. destruct (get_root_cases req Hm Hp) as (Hst & Hb & _).
  unfold not_modified in Hst, Hb.
  rewrite fresh_needs_none_match, andb_false_r in Hst, Hb by exact Hn.
  split; assumption.
Qed.

(** C1, as stated, fails: a [GET /] that carries [If-None-Match: *] is a
    conditional request that [res.send] answers with 304 and no body, under
    every instance of the interface. *)
Lemma get_root_if_none_match_304 :
  let req := request "GET" "/" "" {[ "if-none-match" := "*" ]} in
  req_method req = "GET" /\ req_path req = "/"
  /\ (forall F : Framework,
        statusCode (handle app req) = 304%Z /\ res_body (handle app req) = "").
Proof.
  cbn zeta. split; [reflexivity |]. split; [reflexivity |]. intros F.
  rewrite handle_root by reflexivity.
  rewrite send_status, send_body by reflexivity.
  unfold not_modified. rewrite fresh_star by reflexivity.
  split; reflexivity.
Qed.

(** C1, amended: every [GET /] that carries no [If-None-Match] header is
    answered with status 200 and the exact greeting; in general the reply to
    a [GET /] is either that or, for a conditional request the freshness
    check accepts, status 304 with an empty body. *)
Theorem get_root_reply {F : Framework} (req : Request) :
  req_method req = "GET" -> req_path req = "/" ->
  (present (req_headers req !! "if-none-match") = false ->
     statusCode (handle app req) = 200%Z /\ res_body (handle app req) = greeting)
  /\ ((statusCode (handle app req) = 200%Z /\ res_body (handle app req) = greeting)
      \/ (statusCode (handle app req) = 304%Z /\ res_body (handle app req) = "")).
Proof.
  intros Hm Hp. split.
  - apply get_root_plain; assumption.
  - destruct (get_root_cases req Hm Hp) as (Hst & Hb & _).
    destruct (not_modified req greeting); [right | left]; split; assumption.
Qed.

Lemma get_root_reply_witness :
  let req := request "GET" "/" "utm=1" {[ "accept" := "*/*" ]} in
  statusCode (handle (F := sample) (app (F := sample)) req) = 200%Z
  /\ res_body (handle (F := sample) (app (F := sample)) req) = greeting.
Proof.
  cbn zeta.
  apply (get_root_reply (F := sample)
           (request "GET" "/" "utm=1" {[ "accept" := "*/*" ]}));
    reflexivity.
Defined.

(** C3, as stated, fails: the reply to a plain [GET /] carries the type
    [res.send] gives a string body, [text/html; charset=utf-8]. *)
Lemma get_root_type_is_html :
  let req := request "GET" "/" "" ∅ in
  (forall F : Framework,
     res_headers (handle app req) !! "content-type"
     = Some "text/html; charset=utf-8")
  /\ Some "text/html; charset=utf-8" <> Some "text/plain".
Proof.
  cbn zeta. split; [| discriminate]. intros F.
  rewrite handle_root by reflexivity.
  rewrite send_content_type by reflexivity.
  reflexivity.
Qed.

(** C3, amended: every reply to [GET /] with status 200 carries the
    Content-Type [text/html; charset=utf-8]; the only other reply, 304 to a
    conditional request, carries no Content-Type.  No reply carries
    [text/plain]. *)
Theorem get_root_content_type {F : Framework} (req : Request) :
  req_method req = "GET" -> req_path req = "/" ->
  let res := handle app req in
  ((statusCode res = 200%Z
    /\ res_headers res !! "content-type" = Some "text/html; charset=utf-8")
   \/ (statusCode res = 304%Z /\ res_headers res !! "content-type" = None))
  /\ res_headers res !! "content-type" <> Some "text/plain".
Proof.
  intros Hm Hp. cbn zeta.
  destruct (get_root_cases req Hm Hp) as (Hst & _ & Hct).
  rewrite Hst, Hct.
  destruct (not_modified req greeting); split;
    try discriminate; [right | left]; split; reflexivity.
Qed.

Lemma get_root_content_type_witness :
  res_headers (handle (F := sample) (app (F := sample)) (request "GET" "/" "" ∅)) !! "content-type"
  <> Some "text/plain".
Proof.
  apply (get_root_content_type (F := sample) (request "GET" "/" "" ∅));
    reflexivity.
Defined.

(** C6, as stated, fails: two [GET /] requests that differ only in one
    header, [If-None-Match], get different statuses and different bodies. *)
Lemma get_root_depends_on_if_none_match :
  let r1 := request "GET" "/" "" ∅ in
  let r2 := request "GET" "/" "" {[ "if-none-match" := "*" ]} in
  req_method r1 = req_method r2 /\ req_path r1 = req_path r2
  /\ req_query r1 = req_query r2
  /\ (forall F : Framework,
        statusCode (handle app r1) = 200%Z /\ statusCode (handle app r2) = 304%Z
        /\ res_body (handle app r1) = greeting /\ res_body (handle app r2) = "").
Proof.
  cbn zeta. repeat (split; [reflexivity |]). intros F.
  rewrite !handle_root by reflexivity.
  rewrite !send_status, !send_body by reflexivity.
  unfold not_modified, request. cbn [req_headers req_method].
  rewrite (fresh_star {[ "if-none-match" := "*" ]}) by reflexivity.
  rewrite fresh_needs_none_match by reflexivity.
  repeat split.
Qed.

(** C6, amended: two [GET /] requests that agree on the headers
    [If-None-Match], [If-Modified-Since] and [Cache-Control] get the same
    status and the same body, whatever their other headers and their query
    strings; when they carry no [If-None-Match] these are 200 and the
    greeting. *)
Theorem get_root_reply_determined {F : Framework} (r1 r2 : Request) :
  req_method r1 = "GET" -> req_method r2 = "GET" ->
  req_path r1 = "/" -> req_path r2 = "/" ->
  req_headers r1 !! "if-none-match" = req_headers r2 !! "if-none-match" ->
  req_headers r1 !! "if-modified-since" = req_headers r2 !! "if-modified-since" ->
  req_headers r1 !! "cache-control" = req_headers r2 !! "cache-control" ->
  statusCode (handle app r1) = statusCode (handle app r2)
  /\ res_body (handle app r1) = res_body (handle app r2)
  /\ (present (req_headers r1 !! "if-none-match") = false ->
        statusCode (handle app r1) = 200%Z /\ statusCode (handle app r2) = 200%Z
        /\ res_body (handle app r1) = greeting /\ res_body (handle app r2) = greeting).
Proof.
  intros Hm1 Hm2 Hp1 Hp2 Hn Hs Hc.
  assert (Heq : handle app r1 = handle app r2).
  { rewrite !handle_root
      by (unfold get_or_head; rewrite ?Hm1, ?Hm2; reflexivity || assumption).
    apply send_ext; congruence. }
  rewrite <- Heq. split; [reflexivity |]. split; [reflexivity |].
  intros Hnone. destruct (get_root_plain r1 Hm1 Hp1 Hnone) as [Hst Hb].
  repeat split; assumption.
Qed.

Lemma get_root_reply_determined_witness :
  let r1 := request "GET" "/" "a=1&b=2"
              {[ "user-agent" := "curl/8"; "accept" := "text/plain" ]} in
  let r2 := request "GET" "/" "" ∅ in
  statusCode (handle (F := sample) (app (F := sample)) r1)
  = statusCode (handle (F := sample) (app (F := sample)) r2)
  /\ res_body (handle (F := sample) (app (F := sample)) r1)
     = res_body (handle (F := sample) (app (F := sample)) r2).
Proof.
  cbn zeta.
  destruct (get_root_reply_determined (F := sample)
              (request "GET" "/" "a=1&b=2"
                 {[ "user-agent" := "curl/8"; "accept" := "text/plain" ]})
              (request "GET" "/" "" ∅)
              eq_refl eq_refl eq_refl eq_refl eq_refl eq_refl eq_refl)
    as (Hst & Hb & _).
  split; assumption.
Defined.

(** ** Every other request *)

(** C4, as stated, fails: [HEAD /] is a request whose method is not GET, and
    the route registered with [app.get] answers it with status 200. *)
Lemma head_root_is_200 :
  let req := request "HEAD" "/" "" ∅ in
  req_method req <> "GET"
  /\ (forall F : Framework, statusCode (handle app req) = 200%Z).
Proof.
  cbn zeta. split; [discriminate |]. intros F.
  rewrite handle_root by reflexivity.
  rewrite send_status by reflexivity.
  unfold not_modified. rewrite fresh_needs_none_match by reflexivity.
  reflexivity.
Qed.

Lemma route_rejects {F : Framework} (path : string) :
  only_slashes path = false -> route_match "/" path = false.
Proof.
  intros Hp. destruct (route_match "/" path) eqn:Hm; [| reflexivity].
  apply route_match_slashes in Hm. congruence.
Qed.

(** C4, amended: every request handed to the application whose path has a
    character other than [/] (so every path but [/] itself and the empty and
    slash-only paths, on which releases of the framework differ), or whose
    method is none of GET, HEAD (compared as the router does, without regard
    to case) and OPTIONS, is answered with status 404, never 405, and does
    not crash the process: a serving process answers it with that one reply
    and is left as it was, serving. *)
Theorem unrouted_request_404 {F : Framework} (req : Request) :
  only_slashes (req_path req) = false
  \/ (toLowerCase (req_method req) <> "get"
      /\ toLowerCase (req_method req) <> "head"
      /\ req_method req <> "OPTIONS") ->
  statusCode (handle app req) = 404%Z
  /\ (forall p, proc_app p = app -> proc_state p = Serving ->
        step p (Incoming req) = (p, [Reply (handle app req)])
        /\ proc_state (step p (Incoming req)).1 = Serving).
Proof.
  intros Hreq. split.
  - rewrite handle_app.
    destruct Hreq as [Hpath | (Hget & Hhead & Hopt)].
    + rewrite (route_rejects _ Hpath). apply finalhandler_status.
    + apply String.eqb_neq in Hget, Hhead, Hopt. rewrite Hget, Hhead, Hopt.
      cbn [orb]. destruct (negb _); apply finalhandler_status.
  - intros p Happ Hs. unfold step. rewrite Hs, Happ. split; [reflexivity | exact Hs].
Qed.

Lemma unrouted_request_404_witness :
  statusCode (handle (F := sample) (app (F := sample))
                (request "GET" "/metrics" "" ∅)) = 404%Z
  /\ statusCode (handle (F := sample) (app (F := sample))
                   (request "POST" "/" "" ∅)) = 404%Z.
Proof.
  split.
  - apply (unrouted_request_404 (F := sample) (request "GET" "/metrics" "" ∅)).
    left. reflexivity.
  - apply (unrouted_request_404 (F := sample) (request "POST" "/" "" ∅)).
    right. repeat split; discriminate.
Defined.

(** ** Further properties of the replies and of the process *)

Lemma substring_all (s : string) : substring 0 (String.length s) s = s.
Proof. induction s as [|c s IH]; [reflexivity |]. cbn. rewrite IH. reflexivity. Qed.

Lemma length_list_ascii (s : string) :
  length (list_ascii_of_string s) = String.length s.
Proof. induction s as [|c s IH]; [reflexivity |]. cbn. rewrite IH. reflexivity. Qed.

Lemma parseTokenList_loop_plain str rest :
  forallb token_char rest = true ->
  forall i start e tokens,
  parseTokenList_loop str rest i start e tokens
  = (tokens ++ [substring start
                 (match rest with [] => e | _ => i + length rest end - start) str])%list.
Proof.
  induction rest as [|c rest IH]; intros Hp i start e tokens; [reflexivity |].
  cbn [forallb] in Hp. apply andb_prop in Hp as [Hc Hrest].
  unfold token_char in Hc. apply andb_prop in Hc as [Hs Hk].
  apply negb_true_iff in Hs, Hk.
  cbn [parseTokenList_loop]. rewrite Hs, Hk. rewrite (IH Hrest).
  destruct rest as [|c' rest]; cbn [length]; do 3 f_equal; lia.
Qed.

Lemma parseTokenList_plain (s : string) :
  plain_token s = true -> parseTokenList s = [s].
Proof.
  intros Hp. unfold parseTokenList. rewrite parseTokenList_loop_plain by exact Hp.
  cbn [Datatypes.app]. f_equal.
  rewrite <- (substring_all s) at 3. f_equal.
  rewrite <- length_list_ascii. destruct (list_ascii_of_string s); cbn; lia.
Qed.

Section SendHeaders.

Context {F : Framework}.
Variables (req : Request) (body : string) (res : ServerResponse).
Hypothesis Hstatus : statusCode res = 200%Z.
Hypothesis Htype : res_headers res !! "content-type" = None.
Hypothesis Hetag : res_headers res !! "etag" = None.
Hypothesis Hmod : res_headers res !! "last-modified" = None.

Lemma tagged_headers :
  res_headers (send_etag body (send_length body (send_type res)))
  = sent_headers body (res_headers res).
Proof.
  unfold send_etag, send_length, send_type, sent_headers. rewrite Htype.
  rewrite !lookup_set. repeat case_decide; try discriminate.
  rewrite Hetag. cbn [present negb andb].
  destruct (negb (String.eqb (etag_of body) "")); reflexivity.
Qed.

Lemma send_headers :
  res_headers (send req body res)
  = if not_modified req body
    then delete "transfer-encoding"
           (delete "content-length"
              (delete "content-type" (sent_headers body (res_headers res))))
    else sent_headers body (res_headers res).
Proof.
  unfold send, send_fresh.
  rewrite (tagged_fresh req body res Hstatus Htype Hetag Hmod).
  destruct (not_modified req body).
  - destruct (String.eqb (req_method req) "HEAD"); cbn; rewrite tagged_headers;
      reflexivity.
  - unfold send_strip, bodiless.
    repeat (rewrite (tagged_status body res Hstatus Htype); cbn).
    destruct (String.eqb (req_method req) "HEAD"); cbn; apply tagged_headers.
Qed.

End SendHeaders.

Lemma not_modified_head_get {F : Framework} (rg rh : Request) body :
  req_method rg = "GET" -> req_method rh = "HEAD" ->
  req_headers rg = req_headers rh ->
  not_modified rh body = not_modified rg body.
Proof. intros Hg Hh Hhd. unfold not_modified. rewrite Hg, Hh, Hhd. reflexivity. Qed.

(** X1: [HEAD /] is answered as the [GET /] with the same headers would be:
    same status, same response headers (type, length, tag), and no body. *)
Theorem head_root_mirrors_get {F : Framework} (rg rh : Request) :
  req_method rg = "GET" -> req_method rh = "HEAD" ->
  req_path rg = "/" -> req_path rh = "/" ->
  req_headers rg = req_headers rh ->
  statusCode (handle app rh) = statusCode (handle app rg)
  /\ res_headers (handle app rh) = res_headers (handle app rg)
  /\ res_body (handle app rh) = "".
Proof.
  intros Hg Hh Hpg Hph Hhd.
  rewrite !handle_root
    by (unfold get_or_head; rewrite ?Hg, ?Hh; reflexivity || assumption).
  rewrite !send_status, !send_headers, send_body by reflexivity.
  rewrite (not_modified_head_get rg rh greeting Hg Hh Hhd), Hh.
  change (String.eqb "HEAD" "HEAD") with true. rewrite orb_true_r.
  repeat split.
Qed.

Lemma head_root_mirrors_get_witness :
  let rg := request "GET" "/" "" {[ "accept" := "*/*" ]} in
  let rh := request "HEAD" "/" "" {[ "accept" := "*/*" ]} in
  res_headers (handle (F := sample) (app (F := sample)) rh)
  = res_headers (handle (F := sample) (app (F := sample)) rg).
Proof.
  cbn zeta.
  apply (head_root_mirrors_get (F := sample)
           (request "GET" "/" "" {[ "accept" := "*/*" ]})
           (request "HEAD" "/" "" {[ "accept" := "*/*" ]})); reflexivity.
Defined.

Lemma sent_headers_other {F : Framework} body h k :
  k <> "content-length" -> k <> "content-type" -> k <> "etag" ->
  sent_headers body h !! k = h !! k.
Proof.
  intros H1 H2 H3. unfold sent_headers.
  destruct (present _); rewrite ?lookup_insert_ne by congruence; reflexivity.
Qed.

Lemma finalhandler_headers_other {F : Framework} req res k :
  k <> "content-range" -> k <> "content-language" -> k <> "content-encoding" ->
  k <> "content-security-policy" -> k <> "x-content-type-options" ->
  k <> "content-type" -> k <> "content-length" ->
  res_headers (finalhandler req res) !! k = res_headers res !! k.
Proof.
  intros. unfold finalhandler.
  destruct (String.eqb _ _); cbn;
    rewrite ?lookup_insert_ne, ?lookup_delete_ne by congruence; reflexivity.
Qed.

Lemma send_headers_other {F : Framework} req body res k :
  statusCode res = 200%Z ->
  res_headers res !! "content-type" = None ->
  res_headers res !! "etag" = None ->
  res_headers res !! "last-modified" = None ->
  k <> "content-length" -> k <> "content-type" -> k <> "etag" ->
  k <> "transfer-encoding" ->
  res_headers (send req body res) !! k = res_headers res !! k.
Proof.
  intros Hs Ht He Hm H1 H2 H3 H4. rewrite send_headers by assumption.
  destruct (not_modified req body);
    rewrite ?lookup_delete_ne by congruence; apply sent_headers_other; assumption.
Qed.

(** X2: every reply the application produces, whatever the request that
    reached it (routed, [OPTIONS] or 404), carries the header
    [X-Powered-By: Express]: [express()] enables the setting and the program
    never disables it. *)
Theorem powered_by_on_every_reply {F : Framework} (req : Request) :
  res_headers (handle app req) !! "x-powered-by" = Some "Express".
Proof.
  rewrite handle_app.
  repeat match goal with
         | |- context [if ?b then _ else _] => destruct b
         end.
  - rewrite finalhandler_headers_other by discriminate. reflexivity.
  - rewrite send_headers_other by (reflexivity || discriminate). reflexivity.
  - unfold sendOptionsResponse.
    rewrite send_headers_other by (reflexivity || discriminate). reflexivity.
  - rewrite finalhandler_headers_other by discriminate. reflexivity.
Qed.

Lemma etag_matches_refl etag : etag_matches etag etag = true.
Proof. unfold etag_matches. rewrite String.eqb_refl. reflexivity. Qed.

Lemma fresh_same_tag {F : Framework} h tag :
  tag <> "" -> tag <> "*" -> plain_token tag = true ->
  h !! "if-none-match" = Some tag ->
  h !! "if-modified-since" = None ->
  h !! "cache-control" = None ->
  fresh h (Some tag) None = true.
Proof.
  intros Hne Hstar Hplain Hn Hm Hc. unfold fresh. rewrite Hn, Hm, Hc.
  apply String.eqb_neq in Hne, Hstar. cbn [present]. rewrite Hne, Hstar.
  cbn [negb andb]. rewrite parseTokenList_plain by exact Hplain.
  cbn [existsb]. rewrite etag_matches_refl. reflexivity.
Qed.

(** X3: revalidation round trip.  The tag a plain [GET /] received in [ETag],
    sent back alone in [If-None-Match], is answered with 304, an empty body
    and the same tag. *)
Theorem get_root_revalidation {F : Framework} (first again : Request) (tag : string) :
  req_method first = "GET" -> req_path first = "/" ->
  present (req_headers first !! "if-none-match") = false ->
  req_method again = "GET" -> req_path again = "/" ->
  res_headers (handle app first) !! "etag" = Some tag ->
  plain_token tag = true ->
  req_headers again !! "if-none-match" = Some tag ->
  req_headers again !! "if-modified-since" = None ->
  req_headers again !! "cache-control" = None ->
  statusCode (handle app again) = 304%Z
  /\ res_body (handle app again) = ""
  /\ res_headers (handle app again) !! "etag" = Some tag.
Proof.
  intros Hm1 Hp1 Hn1 Hm2 Hp2 Htag Hplain Hn Hs Hc.
  assert (Hnm1 : not_modified first greeting = false).
  { unfold not_modified. rewrite fresh_needs_none_match by exact Hn1.
    apply andb_false_r. }
  rewrite handle_root in Htag
    by (unfold get_or_head; rewrite ?Hm1; reflexivity || assumption).
  rewrite send_headers, Hnm1 in Htag by reflexivity.
  unfold sent_headers in Htag. cbn [present] in Htag.
  destruct (String.eqb_spec (etag_of greeting) "") as [He | He]; cbn [negb] in Htag.
  { rewrite !lookup_insert_ne in Htag by discriminate. discriminate. }
  rewrite lookup_insert_eq in Htag. injection Htag as Htag.
  assert (Hstar : tag <> "*" \/ tag = "*") by (destruct (String.eqb_spec tag "*"); auto).
  assert (Hnm2 : not_modified again greeting = true).
  { unfold not_modified, get_or_head. rewrite Hm2. cbn [String.eqb orb andb].
    change (("GET" =? "GET")%string) with true. cbn [orb andb].
    rewrite Htag. destruct Hstar as [Hstar | ->].
    - apply fresh_same_tag; congruence.
    - apply fresh_star; assumption. }
  destruct (get_root_cases again Hm2 Hp2) as (Hst & Hb & _).
  rewrite Hnm2 in Hst, Hb. split; [exact Hst |]. split; [exact Hb |].
  rewrite handle_root
    by (unfold get_or_head; rewrite ?Hm2; reflexivity || assumption).
  rewrite send_headers, Hnm2 by reflexivity.
  rewrite !lookup_delete_ne by discriminate.
  unfold sent_headers. cbn [present]. apply String.eqb_neq in He. rewrite He.
  cbn [negb]. rewrite lookup_insert_eq. congruence.
Qed.

Lemma get_root_revalidation_witness :
  statusCode
    (handle (F := sample) (app (F := sample))
       (request "GET" "/" "" {[ "if-none-match" := "W/37" ]})) = 304%Z.
Proof.
  apply (get_root_revalidation (F := sample)
           (request "GET" "/" "" ∅)
           (request "GET" "/" "" {[ "if-none-match" := "W/37" ]}) "W/37");
    reflexivity.
Defined.

Lemma no_cache_not_empty cc : no_cache cc = true -> cc <> "".
Proof. intros H ->. discriminate H. Qed.

(** X4: a [GET /] whose [Cache-Control] lists [no-cache] always gets the full
    reply, 200 with the greeting, whatever validators it carries. *)
Theorem get_root_no_cache {F : Framework} (req : Request) (cc : string) :
  req_method req = "GET" -> req_path req = "/" ->
  req_headers req !! "cache-control" = Some cc -> no_cache cc = true ->
  statusCode (handle app req) = 200%Z /\ res_body (handle app req) = greeting.
Proof.
  intros Hm Hp Hcc Hnc.
  assert (Hnm : not_modified req greeting = false).
  { unfold not_modified, fresh. rewrite Hcc, Hnc. cbn [present].
    pose proof (no_cache_not_empty cc Hnc) as Hne.
    apply String.eqb_neq in Hne. rewrite Hne. cbn [negb andb].
    destruct (negb _ && negb _); apply andb_false_r. }
  destruct (get_root_cases req Hm Hp) as (Hst & Hb & _).
  rewrite Hnm in Hst, Hb. split; assumption.
Qed.

Lemma get_root_no_cache_witness :
  let req := request "GET" "/" ""
               {[ "if-none-match" := "*"; "cache-control" := "max-age=0, no-cache" ]} in
  statusCode (handle (F := sample) (app (F := sample)) req) = 200%Z
  /\ res_body (handle (F := sample) (app (F := sample)) req) = greeting.
Proof.
  cbn zeta.
  apply (get_root_no_cache (F := sample)
           (request "GET" "/" ""
              {[ "if-none-match" := "*"; "cache-control" := "max-age=0, no-cache" ]})
           "max-age=0, no-cache"); reflexivity.
Defined.

(** X5: the reply to [GET /] declares the length of the body it sends:
    with status 200 [Content-Length] is the length of the body, 37; with
    status 304 there is neither body nor [Content-Length]. *)
Theorem get_root_content_length {F : Framework} (req : Request) :
  req_method req = "GET" -> req_path req = "/" ->
  let res := handle app req in
  (statusCode res = 200%Z
   /\ res_headers res !! "content-length" = Some (pretty (String.length (res_body res)))
   /\ res_headers res !! "content-length" = Some "37")
  \/ (statusCode res = 304%Z
      /\ res_headers res !! "content-length" = None
      /\ res_body res = "").
Proof.
  intros Hm Hp. cbn zeta.
  destruct (get_root_cases req Hm Hp) as (Hst & Hb & _).
  rewrite Hst, Hb.
  rewrite handle_root
    by (unfold get_or_head; rewrite ?Hm; reflexivity || assumption).
  rewrite send_headers by reflexivity.
  destruct (not_modified req greeting); [right | left]; repeat split.
  - rewrite lookup_delete_ne, lookup_delete_eq by discriminate. reflexivity.
  - unfold sent_headers. destruct (present _);
      rewrite ?lookup_insert_ne by discriminate; rewrite lookup_insert_eq; reflexivity.
  - unfold sent_headers. destruct (present _);
      rewrite ?lookup_insert_ne by discriminate; rewrite lookup_insert_eq; reflexivity.
Qed.

Lemma get_root_content_length_witness :
  res_headers (handle (F := sample) (app (F := sample)) (request "GET" "/" "" ∅))
    !! "content-length" = Some "37".
Proof.
  destruct (get_root_content_length (F := sample) (request "GET" "/" "" ∅)
              eq_refl eq_refl) as [(_ & _ & H) | (H & _)].
  - exact H.
  - discriminate H.
Defined.

(** X6: on the reply to [GET /] or [HEAD /] the application sets no header
    besides [X-Powered-By], [Content-Type], [Content-Length] and [ETag]
    (Node adds its own when it writes the head); in particular it sets no
    cookie and echoes no request header. *)
Theorem root_reply_header_names {F : Framework} (req : Request) (name : string) :
  get_or_head (req_method req) = true -> req_path req = "/" ->
  name <> "x-powered-by" -> name <> "content-type" ->
  name <> "content-length" -> name <> "etag" ->
  res_headers (handle app req) !! name = None.
Proof.
  intros Hm Hp H1 H2 H3 H4. rewrite handle_root by assumption.
  rewrite send_headers by reflexivity.
  assert (Hsent : sent_headers greeting (res_headers (expressInit app response)) !! name
                  = None).
  { rewrite sent_headers_other by assumption.
    rewrite expressInit_app. unfold response, set. cbn.
    rewrite lookup_insert_ne by congruence. apply lookup_empty. }
  destruct (not_modified req greeting); [| exact Hsent].
  destruct (decide (name = "transfer-encoding")) as [-> | Hte].
  - apply lookup_delete_eq.
  - rewrite !lookup_delete_ne by congruence. exact Hsent.
Qed.

Lemma root_reply_header_names_witness :
  res_headers (handle (F := sample) (app (F := sample))
                 (request "GET" "/" "" {[ "cookie" := "sid=1" ]}))
    !! "set-cookie" = None.
Proof.
  apply (root_reply_header_names (F := sample)
           (request "GET" "/" "" {[ "cookie" := "sid=1" ]}) "set-cookie");
    reflexivity || discriminate.
Defined.

(** X7: whatever the environment, [PORT] is truthy: [listen] never receives
    [undefined] and the startup line never names an empty port. *)
Theorem PORT_truthy (env : gmap string string) :
  Js.truthy (PORT env) = true
  /\ PORT env <> Js.VUndefined
  /\ Js.to_string (PORT env) <> "".
Proof.
  unfold PORT, Js.or, Js.get.
  destruct (env !! "PORT") as [s|]; cbn [Js.truthy].
  - destruct (String.eqb_spec s "") as [-> | Hne]; cbn [negb].
    + repeat split; discriminate.
    + cbn [Js.truthy Js.to_string]. apply String.eqb_neq in Hne as Hb.
      rewrite Hb. repeat split; [discriminate | exact Hne].
  - repeat split; discriminate.
Qed.

(** X10: [OPTIONS /] is answered by the router itself with status 200 and an
    [Allow] header, never by the handler and never with 304, even when the
    request carries validators. *)
Theorem options_root_reply {F : Framework} (req : Request) :
  req_method req = "OPTIONS" -> req_path req = "/" ->
  statusCode (handle app req) = 200%Z
  /\ is_Some (res_headers (handle app req) !! "allow")
  /\ res_body (handle app req) <> greeting.
Proof.
  intros Hm Hp. rewrite handle_app, Hp, route_match_root, Hm.
  change (let res := sendOptionsResponse req (expressInit app response) ["GET"; "HEAD"] in
          statusCode res = 200%Z /\ is_Some (res_headers res !! "allow")
          /\ res_body res <> greeting).
  cbn zeta. unfold sendOptionsResponse.
  assert (Hnm : not_modified req (String.concat "," ["GET"; "HEAD"]) = false).
  { unfold not_modified. rewrite Hm. reflexivity. }
  rewrite send_status, send_body, Hnm, Hm by reflexivity.
  rewrite send_headers_other by (reflexivity || discriminate).
  repeat split.
  - eexists. reflexivity.
  - discriminate.
Qed.

Lemma options_root_reply_witness :
  statusCode (handle (F := sample) (app (F := sample))
                (request "OPTIONS" "/" "" {[ "if-none-match" := "*" ]})) = 200%Z.
Proof.
  apply (options_root_reply (F := sample)
           (request "OPTIONS" "/" "" {[ "if-none-match" := "*" ]})); reflexivity.
Defined.
